(** * scrapy-tilda-site: the tree reducer [process_node] and the whitespace
    normalizer [minify_html] of [scrapy_tilda_site.py].

    The development is a shallow embedding.  A Python [str] is a sequence of
    Unicode code points, a BeautifulSoup tree is an inductive type with the
    classes the source tests for ([Comment], [NavigableString], objects with a
    [name]), the attribute dictionary of a tag is a finite map and the two tag
    sets are finite sets. *)

From Stdlib Require Import Strings.Ascii Strings.String Numbers.DecimalString.
From stdpp Require Import base numbers option list gmap strings.

#[local] Set Warnings "-register-all".

Local Open Scope N_scope.

(** ** Python strings *)

(** A [str] is a list of code points. *)
Abbreviation pystr := (list N).

(** Literals are written as Rocq strings and read as their code points. *)
Definition py (s : string) : pystr :=
  (fun a => N_of_ascii a) <$> list_ascii_of_string s.

(** [Py_UNICODE_ISSPACE]: the predicate behind [str.strip()] with no argument
    and behind the class [\s] of a [str] pattern. *)
Definition isspace (c : N) : bool :=
  ((0x09 <=? c) && (c <=? 0x0D))
  || ((0x1C <=? c) && (c <=? 0x20))
  || (c =? 0x85) || (c =? 0xA0) || (c =? 0x1680)
  || ((0x2000 <=? c) && (c <=? 0x200A))
  || (c =? 0x2028) || (c =? 0x2029) || (c =? 0x202F)
  || (c =? 0x205F) || (c =? 0x3000).

Definition SPACE : N := 0x20.

(** [str.lstrip()]: drop the leading whitespace. *)
Fixpoint lstrip (s : pystr) : pystr :=
  match s with
  | [] => []
  | c :: s' => if isspace c then lstrip s' else s
  end.

(** [str.rstrip()]: the same scan from the right end. *)
Definition rstrip (s : pystr) : pystr := reverse (lstrip (reverse s)).

(** [str.strip()]: the left index is advanced first, then the right one. *)
Definition strip (s : pystr) : pystr := rstrip (lstrip s).

(** Truth value of a [str]: non-empty. *)
Definition truthy (s : pystr) : bool :=
  match s with [] => false | _ :: _ => true end.

(** A string that starts with no whitespace. *)
Definition head_ok (s : pystr) : bool :=
  match s with
  | [] => true
  | c :: _ => negb (isspace c)
  end.

(** A string that [strip] leaves alone. *)
Definition stripped (s : pystr) : Prop := lstrip s = s /\ rstrip s = s.

(** [str.lower()] on code points below 128. *)
Definition ascii_lower_char (c : N) : N :=
  if (0x41 <=? c) && (c <=? 0x5A) then c + 0x20 else c.

Definition ascii_lower (s : pystr) : pystr := ascii_lower_char <$> s.

Definition is_ascii (s : pystr) : bool := forallb (fun c => c <? 0x80) s.

(** ** The whitespace normalizer *)

(** [re.sub(r'\s+', ' ', s)]: a left-to-right scan; [in_run] records that the
    previous code point belonged to the match being consumed, whose single
    replacement was written when the match started. *)
Fixpoint sub_ws (in_run : bool) (s : pystr) : pystr :=
  match s with
  | [] => []
  | c :: s' =>
      if isspace c
      then (if in_run then sub_ws true s' else SPACE :: sub_ws true s')
      else c :: sub_ws false s'
  end.

Definition re_sub_ws (s : pystr) : pystr := sub_ws false s.

Definition minify_html (html_str : pystr) : pystr :=
  strip (re_sub_ws html_str).

(** Normal form of the substitution: every whitespace code point is a
    space and no two of them are adjacent. *)
Fixpoint tidy (prev_ws : bool) (s : pystr) : bool :=
  match s with
  | [] => true
  | c :: s' =>
      if isspace c then (c =? SPACE) && negb prev_ws && tidy true s'
      else tidy false s'
  end.

(** The words of the specification, as a relation: the input is cut into
    code points that are not whitespace, copied as they are, and maximal runs
    of whitespace, each replaced by one space. *)
Inductive collapsed : pystr -> pystr -> Prop :=
| collapsed_nil : collapsed [] []
| collapsed_char c s t :
    isspace c = false -> collapsed s t -> collapsed (c :: s) (c :: t)
| collapsed_run w s t :
    w <> [] -> forallb isspace w = true ->
    lstrip s = s ->
    collapsed s t -> collapsed (w ++ s) (SPACE :: t).

(** ** The parsed tree *)

(** The classes of BeautifulSoup strings.  Each of them is a subclass of
    [NavigableString]; [Comment] is one of them. *)
Inductive string_class :=
| ClsNavigableString
| ClsComment
| ClsCData
| ClsProcessingInstruction
| ClsDeclaration
| ClsDoctype.

(** A node of the tree handed to [process_node]: a string of some class, a
    tag with its name, its attribute dictionary and its contents in document
    order, or an object that has no [name] attribute at all.  The values
    the reducer reads ([name], [property] and [content]) are always [str]
    in a parsed tree; an attribute without a value holds the empty string. *)
Inductive PageElement :=
| NavigableString (cls : string_class) (data : pystr)
| Tag (name : pystr) (attrs : gmap (list N) (list N))
      (contents : list PageElement)
| Nameless.

Definition isinstance_Comment (node : PageElement) : bool :=
  match node with
  | NavigableString ClsComment _ => true
  | _ => false
  end.

Definition isinstance_NavigableString (node : PageElement) : bool :=
  match node with
  | NavigableString _ _ => true
  | _ => false
  end.

Definition hasattr_name (node : PageElement) : bool :=
  match node with
  | Tag _ _ _ => true
  | _ => false
  end.

(** [node.get(key, "")]: the dictionary lookup with its default. *)
Definition node_get (attrs : gmap (list N) (list N)) (key : pystr) : pystr :=
  default [] (attrs !! key).

(** ** The tree reducer *)

Definition IGNORE_TAGS : gset (list N) :=
  {[ py "script"; py "style"; py "noscript"; py "iframe"; py "input";
     py "img"; py "link" ]}.

Definition allowed_wrap : gset (list N) :=
  {[ py "html"; py "head"; py "body"; py "div"; py "span"; py "p";
     py "h1"; py "h2"; py "h3"; py "h4"; py "h5"; py "h6";
     py "li"; py "ul"; py "ol"; py "a"; py "button"; py "nav"; py "form" ]}.

(** ["".join(...)] over the reduced children. *)
Definition join (pieces : list pystr) : pystr := concat pieces.

(** The [meta] branch, which reads three attributes and nothing else. *)
Definition process_meta (lower : pystr -> pystr)
    (attrs : gmap (list N) (list N)) : pystr :=
  let name_attr := lower (node_get attrs (py "name")) in
  let prop_attr := lower (node_get attrs (py "property")) in
  if bool_decide (name_attr = py "description")
     || bool_decide (prop_attr = py "og:description")
  then
    let content := strip (node_get attrs (py "content")) in
    if truthy content
    then py "<Description>" ++ content ++ py "</Description>"
    else []
  else [].

Section Reducer.

(** [str.lower()] is Python's; the reducer is defined over any lowering
    function, and the ASCII one above runs the examples. *)
Variable lower : pystr -> pystr.

Fixpoint process_node (node : PageElement) : pystr :=
  if isinstance_Comment node then []
  else match node with
  | NavigableString _ data =>
      let text := strip data in
      if truthy text then text else []
  | Nameless => []
  | Tag name attrs contents =>
      let tag := lower name in
      if bool_decide (tag ∈ IGNORE_TAGS) then []
      else if bool_decide (tag = py "meta") then process_meta lower attrs
      else if bool_decide (tag = py "title") then
        let content := strip (join (process_node <$> contents)) in
        if truthy content
        then py "<Title>" ++ content ++ py "</Title>"
        else []
      else
        let children_content := strip (join (process_node <$> contents)) in
        if negb (truthy children_content) then []
        else if bool_decide (tag ∈ allowed_wrap)
        then py "<" ++ tag ++ py ">" ++ children_content
             ++ py "</" ++ tag ++ py ">"
        else children_content
  end.

(** The same function with the depth of the call stack made explicit:
    [None] when [fuel] nested calls do not suffice. *)
Fixpoint process_node_fuel (fuel : nat) (node : PageElement)
    : option pystr :=
  match fuel with
  | O => None
  | S fuel' =>
      if isinstance_Comment node then Some []
      else match node with
      | NavigableString _ data =>
          let text := strip data in
          Some (if truthy text then text else [])
      | Nameless => Some []
      | Tag name attrs contents =>
          let tag := lower name in
          if bool_decide (tag ∈ IGNORE_TAGS) then Some []
          else if bool_decide (tag = py "meta")
          then Some (process_meta lower attrs)
          else if bool_decide (tag = py "title") then
            pieces ← mapM (process_node_fuel fuel') contents;
            let content := strip (join pieces) in
            Some (if truthy content
                  then py "<Title>" ++ content ++ py "</Title>"
                  else [])
          else
            pieces ← mapM (process_node_fuel fuel') contents;
            let children_content := strip (join pieces) in
            Some (if negb (truthy children_content) then []
                  else if bool_decide (tag ∈ allowed_wrap)
                  then py "<" ++ tag ++ py ">" ++ children_content
                       ++ py "</" ++ tag ++ py ">"
                  else children_content)
      end
  end.

End Reducer.

(** Nesting depth of a tree. *)
Fixpoint depth (node : PageElement) : nat :=
  match node with
  | Tag _ _ contents => S (foldr (fun c d => Nat.max (depth c) d) O contents)
  | _ => 1%nat
  end.

(** Every tag name and every value of [name] and [property] in the tree is
    ASCII. *)
Fixpoint ascii_tree (node : PageElement) : bool :=
  match node with
  | Tag name attrs contents =>
      is_ascii name && is_ascii (node_get attrs (py "name"))
      && is_ascii (node_get attrs (py "property"))
      && forallb ascii_tree contents
  | _ => true
  end.

(** Structural induction that reaches the contents of a tag. *)
Fixpoint PageElement_ind' (P : PageElement -> Prop)
    (Hs : forall cls data, P (NavigableString cls data))
    (Hn : P Nameless)
    (Ht : forall name attrs contents,
        Forall P contents -> P (Tag name attrs contents))
    (node : PageElement) : P node :=
  match node with
  | NavigableString cls data => Hs cls data
  | Nameless => Hn
  | Tag name attrs contents =>
      Ht name attrs contents
         ((fix go (l : list PageElement) : Forall P l :=
             match l with
             | [] => List.Forall_nil P
             | x :: l' =>
                 List.Forall_cons P x l' (PageElement_ind' P Hs Hn Ht x) (go l')
             end) contents)
  end.

(** ** The call stack *)

Section CallDepth.

Variable lower : pystr -> pystr.

(** The nested calls of [process_node] a tree takes: one for the node, and
    for a tag that is neither ignored nor [meta] one more for the deepest of
    its children.  The contents of ignored and [meta] tags are not visited. *)
Fixpoint call_depth (node : PageElement) : nat :=
  match node with
  | Tag name _ contents =>
      if bool_decide (lower name ∈ IGNORE_TAGS)
         || bool_decide (lower name = py "meta")
      then 1%nat
      else S (foldr (fun child d => Nat.max (call_depth child) d) O contents)
  | _ => 1%nat
  end.

End CallDepth.

(** [sys.getrecursionlimit()] as the interpreter starts: the frames the
    stack may hold.  Every nested call of [process_node] takes at least one
    of them, and the source neither raises the limit nor bounds its
    recursion. *)
Definition recursion_limit : nat := 1000.

(** [n] tags of one name inside each other, around [inner]. *)
Fixpoint nested (name : pystr) (n : nat) (inner : PageElement)
    : PageElement :=
  match n with
  | O => inner
  | S k => Tag name ∅ [nested name k inner]
  end.

(** ** Sample documents *)

Definition text (s : string) : PageElement :=
  NavigableString ClsNavigableString (py s).

Definition elem (name : string) (contents : list PageElement) : PageElement :=
  Tag (py name) ∅ contents.

Definition meta_description : PageElement :=
  Tag (py "meta")
      {[ py "name" := py "description"; py "content" := py "  Hello world  " ]}
      [].

Definition meta_og : PageElement :=
  Tag (py "meta")
      {[ py "property" := py "og:description"; py "content" := py "X" ]} [].

Definition meta_keywords : PageElement :=
  Tag (py "meta") {[ py "name" := py "keywords"; py "content" := py "X" ]} [].

Definition title_doc : PageElement :=
  elem "title" [text " A "; elem "b" [text "B"]; text " "].

Definition div_script : PageElement :=
  elem "div" [elem "script" [text "ignored"]].

Definition div_p_span : PageElement :=
  elem "div" [elem "p" [text "Hi"]; elem "span" [text "  "]].

Definition meta_upper : PageElement :=
  Tag (py "META")
      {[ py "property" := py "OG:Description"; py "content" := py " X " ]}
      [text "child"].

(** A page of as many nested [div] tags as the stack holds frames. *)
Definition deep_page : PageElement :=
  nested (py "div") recursion_limit (NavigableString ClsNavigableString (py "x")).

(** ** The command-line program *)

(** The comment pass of [main]: [find_all] collects every [Comment] below the
    node, in the contents of tags at any depth, and [extract] takes each one
    out of its parent; nothing else moves. *)
Fixpoint extract_comments (node : PageElement) : PageElement :=
  match node with
  | Tag name attrs contents =>
      Tag name attrs
          (omap (fun child =>
                   if isinstance_Comment child then None
                   else Some (extract_comments child)) contents)
  | _ => node
  end.

Definition is_tag_named (name : pystr) (node : PageElement) : bool :=
  match node with
  | Tag n _ _ => bool_decide (n = name)
  | _ => false
  end.

(** [node.find(name)], which [soup.html] stands for: the first tag of that
    name below the node, in document order (a tag before its contents, the
    contents of a tag before its next sibling). *)
Fixpoint find_tag (name : pystr) (node : PageElement) : option PageElement :=
  match node with
  | Tag _ _ contents =>
      (fix first_in (siblings : list PageElement) : option PageElement :=
         match siblings with
         | [] => None
         | child :: rest =>
             if is_tag_named name child then Some child
             else match find_tag name child with
                  | Some found => Some found
                  | None => first_in rest
                  end
         end) contents
  | _ => None
  end.

(** [soup.html if soup.html else soup]; a tag is always true. *)
Definition select_root (soup : PageElement) : PageElement :=
  default soup (find_tag (py "html") soup).

(** [str(n)] of an [int]. *)
Definition str_int (n : Z) : pystr := py (NilZero.string_of_int (Z.to_int n)).

Module Http.
(** What [main] reads of the object [requests.get] returns. *)
Record Response := { status_code : Z; text : pystr }.
End Http.

(** What [main] does to the outside, in order: a line printed,
    [open(path, "w")], after which the file exists and is empty, and the data
    [f.write] puts into it. *)
Inductive effect :=
| Print (line : pystr)
| OpenWrite (path : pystr)
| Write (path : pystr) (data : pystr).

(** The exceptions the code of [main] can raise by itself. *)
Inductive exception :=
| RecursionError
| UnicodeEncodeError.

(** A run of [main]: its effects, and the exception that ended it if one
    did. *)
Record outcome := { effects : list effect; raised : option exception }.

(** The UTF-8 codec of the output file refuses the surrogates. *)
Definition is_surrogate (c : N) : bool := (0xD800 <=? c) && (c <=? 0xDFFF).

Definition utf8_encodable (s : pystr) : bool :=
  forallb (fun c => negb (is_surrogate c)) s.

Definition url : pystr := py "https://digitum.tilda.ws/".

Definition headers : gmap (list N) (list N) :=
  {[ py "User-Agent" :=
       py "Mozilla/5.0 (Windows NT 10.0; Win64; x64) "
       ++ py "AppleWebKit/537.36 (KHTML, like Gecko) "
       ++ py "Chrome/110.0.0.0 Safari/537.36" ]}.

Definition output_file : pystr := py "extracted_text_structure.html".

(** The text printed before the status code when the request fails. *)
Definition request_error_text : pystr :=
  [0x41E; 0x448; 0x438; 0x431; 0x43A; 0x430; 0x20; 0x43F; 0x440; 0x438;
   0x20; 0x432; 0x44B; 0x43F; 0x43E; 0x43B; 0x43D; 0x435; 0x43D; 0x438;
   0x438; 0x20; 0x437; 0x430; 0x43F; 0x440; 0x43E; 0x441; 0x430; 0x3A;
   0x20; 0x441; 0x442; 0x430; 0x442; 0x443; 0x441; 0x20].

(** The text printed before the quoted file name once the file is written. *)
Definition saved_text : pystr :=
  [0x424; 0x430; 0x439; 0x43B; 0x20; 0x441; 0x20; 0x442; 0x435; 0x43A;
   0x441; 0x442; 0x43E; 0x432; 0x43E; 0x439; 0x20; 0x441; 0x442; 0x440;
   0x443; 0x43A; 0x442; 0x443; 0x440; 0x43E; 0x439; 0x20; 0x441; 0x43E;
   0x445; 0x440; 0x430; 0x43D; 0x435; 0x43D; 0x20; 0x43A; 0x430; 0x43A;
   0x20; 0x27].

Section Program.

Variable lower : pystr -> pystr.

(** The nested calls of [process_node] the recursion limit leaves room for
    where [main] calls it. *)
Variable stack : nat.

(** The two collaborators of [main]: the HTTP request and the parser
    ([BeautifulSoup(html_text, "html.parser")]).  The request is taken to
    return a response, and the file system and the console to accept what
    [main] hands them; the exceptions below are the ones the page itself
    causes. *)
Variable requests_get : pystr -> gmap (list N) (list N) -> Http.Response.
Variable BeautifulSoup : pystr -> PageElement.

(** [main].  [process_node] runs before the file is opened; [f.write]
    encodes the whole string before it puts anything into the file, and the
    last [print] comes after the [with] block. *)
Definition main : outcome :=
  let response := requests_get url headers in
  if bool_decide (Http.status_code response <> 200%Z)
  then {| effects :=
            [Print (request_error_text
                    ++ str_int (Http.status_code response))];
          raised := None |}
  else
    let html_text := Http.text response in
    let soup := extract_comments (BeautifulSoup html_text) in
    let root := select_root soup in
    match process_node_fuel lower stack root with
    | None => {| effects := []; raised := Some RecursionError |}
    | Some extracted =>
        let minified := minify_html extracted in
        if utf8_encodable minified
        then {| effects :=
                  [OpenWrite output_file; Write output_file minified;
                   Print (saved_text ++ output_file ++ py "'")];
                raised := None |}
        else {| effects := [OpenWrite output_file];
                raised := Some UnicodeEncodeError |}
    end.

End Program.

(** A page with a comment before, inside and after its [html] tag. *)
Definition sample_soup : PageElement :=
  Tag (py "[document]") ∅
      [NavigableString ClsDoctype (py "html");
       NavigableString ClsComment (py " saved from url ");
       elem "html"
            [elem "head" [elem "title" [text " Digitum "]];
             elem "body"
                  [NavigableString ClsComment (py " header ");
                   elem "section"
                        [elem "h1" [text "Hello"];
                         elem "script" [text "var x = 1;"]];
                   elem "p" [text "a  b"; elem "img" []]]];
       NavigableString ClsComment (py " end ")].

(** A page whose only text is a lone surrogate. *)
Definition surrogate_soup : PageElement :=
  Tag (py "[document]") ∅
      [elem "html"
            [elem "body"
                  [elem "p" [NavigableString ClsNavigableString [0xD83D]]]]].

Definition sample_get (status : Z)
    (_ : pystr) (_ : gmap (list N) (list N)) : Http.Response :=
  {| Http.status_code := status; Http.text := py "<html>...</html>" |}.

(** The code points of a string that are not whitespace, in order. *)
Definition visible (s : pystr) : pystr :=
  filter (fun c => isspace c = false) s.

(** A [Comment] somewhere below the node. *)
Fixpoint comment_below (node : PageElement) : bool :=
  match node with
  | Tag _ _ contents =>
      existsb (fun child => isinstance_Comment child || comment_below child)
              contents
  | _ => false
  end.

(** * Properties *)

(** ** Stripping *)

Lemma lstrip_length s : (length (lstrip s) <= length s)%nat.
Proof.
  induction s as [|c s IH]; simpl; [lia|].
  destruct (isspace c); simpl; lia.
Qed.

Lemma lstrip_fixed s : lstrip s = s <-> head_ok s = true.
Proof.
  destruct s as [|c s]; simpl; [tauto|].
  destruct (isspace c) eqn:Hc; simpl; split; try done.
  intros E. pose proof (lstrip_length s) as Hl.
  rewrite E in Hl. simpl in Hl. lia.
Qed.

Lemma head_ok_lstrip s : head_ok (lstrip s) = true.
Proof.
  induction s as [|c s IH]; simpl; [done|].
  destruct (isspace c) eqn:Hc; simpl; [done|]. by rewrite Hc.
Qed.

Lemma lstrip_idemp s : lstrip (lstrip s) = lstrip s.
Proof. apply lstrip_fixed, head_ok_lstrip. Qed.

Lemma rstrip_fixed s : rstrip s = s <-> head_ok (reverse s) = true.
Proof.
  unfold rstrip. rewrite <- lstrip_fixed. split; intros E.
  - rewrite <- E at 2. by rewrite reverse_involutive.
  - rewrite E. apply reverse_involutive.
Qed.

Lemma rstrip_idemp s : rstrip (rstrip s) = rstrip s.
Proof.
  unfold rstrip. by rewrite reverse_involutive, lstrip_idemp.
Qed.

Lemma lstrip_snoc s c :
  lstrip (s ++ [c]) =
  if truthy (lstrip s) then lstrip s ++ [c]
  else if isspace c then [] else [c].
Proof.
  induction s as [|d s IH]; simpl.
  - by destruct (isspace c).
  - destruct (isspace d); [done|]. done.
Qed.

Lemma truthy_reverse s : truthy (reverse s) = truthy s.
Proof.
  destruct s as [|c s]; [done|].
  rewrite reverse_cons. by destruct (reverse s).
Qed.

(** [rstrip] read from the left. *)
Lemma rstrip_cons c s :
  rstrip (c :: s) =
  if truthy (rstrip s) then c :: rstrip s
  else if isspace c then [] else [c].
Proof.
  unfold rstrip. rewrite reverse_cons, lstrip_snoc, truthy_reverse.
  destruct (truthy (lstrip (reverse s))) eqn:Ht.
  - by rewrite reverse_snoc.
  - by destruct (isspace c).
Qed.

Lemma rstrip_nil : rstrip [] = [].
Proof. done. Qed.

Lemma head_ok_app a b :
  head_ok a = true -> head_ok b = true -> head_ok (a ++ b) = true.
Proof. destruct a; simpl; auto. Qed.

Lemma head_ok_rstrip s : head_ok s = true -> head_ok (rstrip s) = true.
Proof.
  destruct s as [|c s]; [done|]. simpl. intros Hc.
  rewrite rstrip_cons.
  destruct (truthy (rstrip s)); simpl; [done|].
  destruct (isspace c) eqn:E; simpl in *; [done|]. by rewrite E.
Qed.

Lemma stripped_iff s :
  stripped s <-> head_ok s = true /\ head_ok (reverse s) = true.
Proof. unfold stripped. by rewrite lstrip_fixed, rstrip_fixed. Qed.

Lemma stripped_nil : stripped [].
Proof. done. Qed.

Lemma strip_fixed s : stripped s -> strip s = s.
Proof. intros [Hl Hr]. unfold strip. by rewrite Hl. Qed.

Lemma strip_stripped s : stripped (strip s).
Proof.
  split.
  - apply lstrip_fixed, head_ok_rstrip, head_ok_lstrip.
  - apply rstrip_idemp.
Qed.

Lemma strip_idemp s : strip (strip s) = strip s.
Proof. apply strip_fixed, strip_stripped. Qed.

Lemma stripped_app a b : stripped a -> stripped b -> stripped (a ++ b).
Proof.
  rewrite !stripped_iff, reverse_app. intros [? ?] [? ?].
  split; by apply head_ok_app.
Qed.

Lemma stripped_join pieces : Forall stripped pieces -> stripped (join pieces).
Proof.
  unfold join. induction 1 as [|p ps Hp _ IH]; simpl.
  - apply stripped_nil.
  - by apply stripped_app.
Qed.

(** A string between two code points that are not whitespace. *)
Lemma stripped_between c1 m c2 :
  isspace c1 = false -> isspace c2 = false -> stripped (c1 :: m ++ [c2]).
Proof.
  intros H1 H2. apply stripped_iff. split; simpl.
  - by rewrite H1.
  - rewrite reverse_cons, reverse_app. simpl. by rewrite H2.
Qed.

Lemma truthy_false s : truthy s = false <-> s = [].
Proof. destruct s; simpl; split; done. Qed.

Lemma if_truthy_id s : (if truthy s then s else []) = s.
Proof. by destruct s. Qed.

(** Leading and trailing whitespace is all that [lstrip], [rstrip] and
    [strip] take away. *)
Lemma lstrip_split s :
  exists l, forallb isspace l = true /\ s = l ++ lstrip s.
Proof.
  induction s as [|c s [l [Hl E]]]; simpl.
  - by exists [].
  - destruct (isspace c) eqn:Hc.
    + exists (c :: l). simpl. rewrite Hc, Hl. split; [done|]. by rewrite <- E.
    + by exists [].
Qed.

Lemma forallb_reverse (f : N -> bool) s :
  forallb f (reverse s) = forallb f s.
Proof.
  induction s as [|c s IH]; [done|].
  rewrite reverse_cons, forallb_app, IH. simpl.
  destruct (f c), (forallb f s); done.
Qed.

Lemma rstrip_split s :
  exists r, forallb isspace r = true /\ s = rstrip s ++ r.
Proof.
  destruct (lstrip_split (reverse s)) as [l [Hl E]].
  exists (reverse l). rewrite forallb_reverse. split; [done|].
  unfold rstrip. rewrite <- reverse_app, <- E.
  by rewrite reverse_involutive.
Qed.

Lemma strip_split s :
  exists l r, forallb isspace l = true /\ forallb isspace r = true
              /\ s = l ++ strip s ++ r.
Proof.
  destruct (lstrip_split s) as [l [Hl El]].
  destruct (rstrip_split (lstrip s)) as [r [Hr Er]].
  exists l, r. repeat split; try done.
  unfold strip. by rewrite <- Er.
Qed.

Lemma lstrip_spaces w s : forallb isspace w = true -> lstrip (w ++ s) = lstrip s.
Proof.
  induction w as [|c w IH]; simpl; [done|].
  destruct (isspace c); simpl; [auto|done].
Qed.

(** ** The normalizer *)

Lemma sub_ws_true s : sub_ws true s = sub_ws false (lstrip s).
Proof.
  induction s as [|c s IH]; simpl; [done|].
  destruct (isspace c) eqn:Hc; simpl; [done|]. by rewrite Hc.
Qed.

Lemma re_sub_ws_collapsed s : collapsed s (re_sub_ws s).
Proof.
  unfold re_sub_ws.
  remember (length s) as n eqn:Hn.
  revert s Hn. induction (lt_wf n) as [n _ IH]. intros s ->.
  destruct s as [|c s]; simpl; [constructor|].
  destruct (isspace c) eqn:Hc.
  - rewrite sub_ws_true.
    destruct (lstrip_split s) as [l [Hl E]].
    rewrite E at 1.
    change (c :: l ++ lstrip s) with ((c :: l) ++ lstrip s).
    apply collapsed_run.
    + done.
    + simpl. by rewrite Hc.
    + apply lstrip_idemp.
    + eapply IH; [|reflexivity]. pose proof (lstrip_length s). simpl. lia.
  - apply collapsed_char; [done|]. eapply IH; [|reflexivity]. simpl. lia.
Qed.

Lemma collapsed_re_sub_ws s t : collapsed s t -> t = re_sub_ws s.
Proof.
  unfold re_sub_ws. induction 1 as [|c s t Hc _ IH|w s t Hw Hall Hs _ IH].
  - done.
  - simpl. by rewrite Hc, IH.
  - destruct w as [|c w]; [done|]. simpl in *.
    apply andb_true_iff in Hall as [Hc Hall]. rewrite Hc.
    by rewrite sub_ws_true, lstrip_spaces, Hs, IH.
Qed.

Lemma tidy_sub_ws b s : tidy b (sub_ws b s) = true.
Proof.
  revert b. induction s as [|c s IH]; intros b; simpl; [done|].
  destruct (isspace c) eqn:Hc.
  - destruct b; [apply IH|]. simpl. apply IH.
  - simpl. rewrite Hc. apply IH.
Qed.

Lemma sub_ws_tidy b s : tidy b s = true -> sub_ws b s = s.
Proof.
  revert b. induction s as [|c s IH]; intros b; simpl; [done|].
  destruct (isspace c) eqn:Hc.
  - intros H. apply andb_true_iff in H as [H Ht].
    apply andb_true_iff in H as [Heq Hb].
    apply N.eqb_eq in Heq. destruct b; [done|].
    by rewrite (IH true Ht), Heq.
  - intros H. by rewrite (IH false H).
Qed.

Lemma tidy_weaken b s : tidy b s = true -> tidy false s = true.
Proof.
  destruct s as [|c s]; simpl; [done|].
  destruct (isspace c); [|done].
  intros H. apply andb_true_iff in H as [H Ht].
  apply andb_true_iff in H as [Heq Hb]. by rewrite Heq, Ht.
Qed.

Lemma tidy_lstrip b s : tidy b s = true -> tidy false (lstrip s) = true.
Proof.
  revert b. induction s as [|c s IH]; intros b; simpl; [done|].
  destruct (isspace c) eqn:Hc.
  - intros H. apply andb_true_iff in H as [_ Ht]. eauto.
  - intros H. simpl. by rewrite Hc.
Qed.

Lemma tidy_rstrip b s : tidy b s = true -> tidy b (rstrip s) = true.
Proof.
  revert b. induction s as [|c s IH]; intros b; [done|].
  rewrite rstrip_cons. simpl.
  destruct (isspace c) eqn:Hc.
  - intros H. apply andb_true_iff in H as [H Ht].
    destruct (truthy (rstrip s)); [|done].
    simpl. rewrite Hc, H. by apply IH.
  - intros H. destruct (truthy (rstrip s)); simpl; rewrite Hc; [by apply IH|done].
Qed.

Lemma minify_html_tidy x : tidy false (minify_html x) = true.
Proof.
  unfold minify_html, strip, re_sub_ws.
  apply tidy_rstrip. eapply tidy_lstrip. apply tidy_sub_ws.
Qed.

Lemma minify_html_idemp x : minify_html (minify_html x) = minify_html x.
Proof.
  unfold minify_html at 1. unfold re_sub_ws.
  rewrite (sub_ws_tidy _ _ (minify_html_tidy x)).
  unfold minify_html. apply strip_idemp.
Qed.

(** ** The tag sets *)

Lemma IGNORE_TAGS_elems t :
  t ∈ IGNORE_TAGS <->
  t ∈ [py "script"; py "style"; py "noscript"; py "iframe"; py "input";
       py "img"; py "link"].
Proof.
  unfold IGNORE_TAGS.
  rewrite !elem_of_union, !elem_of_singleton, !elem_of_cons, elem_of_nil.
  tauto.
Qed.

Lemma allowed_wrap_elems t :
  t ∈ allowed_wrap <->
  t ∈ [py "html"; py "head"; py "body"; py "div"; py "span"; py "p";
       py "h1"; py "h2"; py "h3"; py "h4"; py "h5"; py "h6";
       py "li"; py "ul"; py "ol"; py "a"; py "button"; py "nav"; py "form"].
Proof.
  unfold allowed_wrap.
  rewrite !elem_of_union, !elem_of_singleton, !elem_of_cons, elem_of_nil.
  tauto.
Qed.

Lemma meta_not_ignored : py "meta" ∉ IGNORE_TAGS.
Proof. compute_done. Qed.

Lemma title_not_ignored : py "title" ∉ IGNORE_TAGS.
Proof. compute_done. Qed.

Lemma title_not_meta : py "title" <> py "meta".
Proof. compute_done. Qed.

(** The allow-set is disjoint from the ignore-set and holds neither [meta]
    nor [title], so an allowed tag reaches the last branch. *)
Lemma allowed_wrap_branch t :
  t ∈ allowed_wrap ->
  (t ∉ IGNORE_TAGS) /\ t <> py "meta" /\ t <> py "title".
Proof.
  rewrite allowed_wrap_elems, !elem_of_cons, elem_of_nil.
  intros H.
  repeat (destruct H as [->|H]; [repeat split; compute_done|]).
  done.
Qed.

(** ** The reducer *)

Section ReducerFacts.

Variable lower : pystr -> pystr.

Lemma process_node_string cls data :
  process_node lower (NavigableString cls data) =
  if isinstance_Comment (NavigableString cls data) then [] else strip data.
Proof. simpl. destruct cls; try done; apply if_truthy_id. Qed.

Lemma process_node_tag name attrs contents :
  process_node lower (Tag name attrs contents) =
  let tag := lower name in
  if bool_decide (tag ∈ IGNORE_TAGS) then []
  else if bool_decide (tag = py "meta") then process_meta lower attrs
  else if bool_decide (tag = py "title") then
    let content := strip (join (process_node lower <$> contents)) in
    if truthy content then py "<Title>" ++ content ++ py "</Title>" else []
  else
    let children_content :=
      strip (join (process_node lower <$> contents)) in
    if negb (truthy children_content) then []
    else if bool_decide (tag ∈ allowed_wrap)
    then py "<" ++ tag ++ py ">" ++ children_content
         ++ py "</" ++ tag ++ py ">"
    else children_content.
Proof. reflexivity. Qed.

Lemma process_meta_stripped attrs : stripped (process_meta lower attrs).
Proof.
  unfold process_meta.
  destruct (_ || _); [|apply stripped_nil].
  destruct (truthy _); [|apply stripped_nil].
  change (py "<Description>") with (0x3C :: py "Description>").
  change (py "</Description>") with (py "</Description" ++ [0x3E]).
  rewrite <- app_comm_cons, !app_assoc. by apply stripped_between.
Qed.

(** No branch returns a string with whitespace at either end. *)
Lemma process_node_stripped node : stripped (process_node lower node).
Proof.
  induction node as [cls data| |name attrs contents IH]
    using PageElement_ind'.
  - rewrite process_node_string.
    destruct (isinstance_Comment _); [apply stripped_nil|apply strip_stripped].
  - apply stripped_nil.
  - rewrite process_node_tag. cbv zeta.
    destruct (bool_decide (_ ∈ IGNORE_TAGS)); [apply stripped_nil|].
    destruct (bool_decide (_ = py "meta")); [apply process_meta_stripped|].
    destruct (bool_decide (_ = py "title")).
    + destruct (truthy _); [|apply stripped_nil].
      change (py "<Title>") with (0x3C :: py "Title>").
      change (py "</Title>") with (py "</Title" ++ [0x3E]).
      rewrite <- app_comm_cons, !app_assoc. by apply stripped_between.
    + destruct (truthy _); cbn [negb]; [|apply stripped_nil].
      destruct (bool_decide _); [|apply strip_stripped].
      change (py "<") with [0x3C]. change (py ">") with [0x3E].
      rewrite <- app_comm_cons, !app_assoc. by apply stripped_between.
Qed.

(** So the trim of the joined children has nothing to remove. *)
Lemma strip_join_children contents :
  strip (join (process_node lower <$> contents))
  = join (process_node lower <$> contents).
Proof.
  apply strip_fixed, stripped_join, Forall_fmap, Forall_forall.
  intros node _. apply process_node_stripped.
Qed.

Lemma mapM_process_node_fuel fuel contents :
  Forall (fun node => process_node_fuel lower fuel node
                      = Some (process_node lower node)) contents ->
  mapM (process_node_fuel lower fuel) contents
  = Some (process_node lower <$> contents).
Proof.
  induction 1 as [|node l Hn _ IH]; [done|].
  cbn. rewrite Hn. cbn. rewrite IH. done.
Qed.

(** A call stack as deep as the tree suffices. *)
Lemma process_node_fuel_enough node : forall fuel,
  (depth node <= fuel)%nat ->
  process_node_fuel lower fuel node = Some (process_node lower node).
Proof.
  induction node as [cls data| |name attrs contents IH]
    using PageElement_ind'; intros fuel Hd.
  - destruct fuel; [simpl in Hd; lia|]. simpl. by destruct cls.
  - destruct fuel; [simpl in Hd; lia|]. done.
  - destruct fuel as [|fuel]; [simpl in Hd; lia|].
    assert (Hc : mapM (process_node_fuel lower fuel) contents
                 = Some (process_node lower <$> contents)).
    { apply mapM_process_node_fuel.
      simpl in Hd. apply Nat.succ_le_mono in Hd.
      clear name attrs. induction IH as [|c l Hc _ IHl]; [done|].
      simpl in Hd. constructor.
      - apply Hc. lia.
      - apply IHl. lia. }
    rewrite process_node_tag. cbn [process_node_fuel]. cbv zeta.
    rewrite Hc.
    destruct (bool_decide (_ ∈ IGNORE_TAGS)); [done|].
    destruct (bool_decide (_ = py "meta")); [done|].
    destruct (bool_decide (_ = py "title")); done.
Qed.

(** The reducer uses [lower] on tag names and on the [name] and [property]
    values only, so on an ASCII tree any lowering function that is Python's
    on ASCII strings gives the result of [ascii_lower]. *)
Hypothesis lower_ascii :
  forall s, is_ascii s = true -> lower s = ascii_lower s.

Lemma process_node_ascii node :
  ascii_tree node = true ->
  process_node lower node = process_node ascii_lower node.
Proof.
  induction node as [cls data| |name attrs contents IH]
    using PageElement_ind'; intros Ha; [done|done|].
  simpl in Ha.
  apply andb_true_iff in Ha as [Ha Hc].
  apply andb_true_iff in Ha as [Ha Hp].
  apply andb_true_iff in Ha as [Hn Ha].
  assert (E : process_node lower <$> contents
              = process_node ascii_lower <$> contents).
  { clear -IH Hc. induction IH as [|c l Hx _ IHl]; [done|].
    simpl in Hc. apply andb_true_iff in Hc as [H1 H2].
    rewrite !fmap_cons, Hx, IHl; done. }
  rewrite !process_node_tag. cbv zeta. unfold process_meta.
  by rewrite E, !lower_ascii.
Qed.

End ReducerFacts.

(** ** The call stack *)

Lemma mapM_None_Exists {A B} (f : A -> option B) (l : list A) :
  Exists (fun x => f x = None) l -> mapM f l = None.
Proof.
  induction 1 as [x l Hx|x l _ IH]; cbn.
  - by rewrite Hx.
  - destruct (f x); cbn; [|done]. by rewrite IH.
Qed.

Lemma foldr_max_le {A} (f : A -> nat) (l : list A) (n : nat) :
  (foldr (fun x d => Nat.max (f x) d) O l <= n)%nat
  <-> Forall (fun x => (f x <= n)%nat) l.
Proof.
  induction l as [|x l IH]; simpl.
  - split; [constructor|lia].
  - rewrite Forall_cons, <- IH. lia.
Qed.

Lemma foldr_max_lt {A} (f : A -> nat) (l : list A) (n : nat) :
  (n < foldr (fun x d => Nat.max (f x) d) O l)%nat ->
  Exists (fun x => (n < f x)%nat) l.
Proof.
  induction l as [|x l IH]; simpl; [lia|].
  intros H. destruct (decide (n < f x)%nat) as [Hx|Hx].
  - by left.
  - right. apply IH. lia.
Qed.

Section CallDepthFacts.

Variable lower : pystr -> pystr.

Lemma call_depth_pos node : (1 <= call_depth lower node)%nat.
Proof.
  destruct node as [cls data|name attrs contents|]; simpl; try lia.
  destruct (_ || _); lia.
Qed.

Lemma call_depth_le_depth node : (call_depth lower node <= depth node)%nat.
Proof.
  induction node as [cls data| |name attrs contents IH]
    using PageElement_ind'; simpl; [lia|lia|].
  destruct (_ || _); [lia|]. apply le_n_S.
  induction IH as [|child rest Hchild _ IHrest]; simpl; lia.
Qed.

(** A call stack that holds [call_depth] nested calls suffices. *)
Lemma process_node_fuel_within node : forall fuel,
  (call_depth lower node <= fuel)%nat ->
  process_node_fuel lower fuel node = Some (process_node lower node).
Proof.
  induction node as [cls data| |name attrs contents IH]
    using PageElement_ind'; intros fuel Hd.
  - destruct fuel; [simpl in Hd; lia|]. simpl. by destruct cls.
  - destruct fuel; [simpl in Hd; lia|]. done.
  - destruct fuel as [|fuel];
      [pose proof (call_depth_pos (Tag name attrs contents)); lia|].
    rewrite process_node_tag. cbn [process_node_fuel isinstance_Comment].
    cbv zeta. cbn [call_depth] in Hd.
    destruct (bool_decide (lower name ∈ IGNORE_TAGS)); [done|].
    destruct (bool_decide (lower name = py "meta")); [done|].
    cbn [orb] in Hd. apply Nat.succ_le_mono, foldr_max_le in Hd.
    assert (Hc : mapM (process_node_fuel lower fuel) contents
                 = Some (process_node lower <$> contents)).
    { apply mapM_process_node_fuel.
      clear name attrs. induction IH as [|c l Hc _ IHl]; [done|].
      apply Forall_cons in Hd as [Hd1 Hd2]. constructor; auto. }
    rewrite Hc. by destruct (bool_decide (_ = py "title")).
Qed.

(** A call stack that holds fewer does not: the call fails. *)
Lemma process_node_fuel_short node : forall fuel,
  (fuel < call_depth lower node)%nat ->
  process_node_fuel lower fuel node = None.
Proof.
  induction node as [cls data| |name attrs contents IH]
    using PageElement_ind'; intros fuel Hd.
  - simpl in Hd. by replace fuel with O by lia.
  - simpl in Hd. by replace fuel with O by lia.
  - destruct fuel as [|fuel]; [done|].
    cbn [process_node_fuel isinstance_Comment]. cbv zeta.
    cbn [call_depth] in Hd.
    destruct (bool_decide (lower name ∈ IGNORE_TAGS)); [simpl in Hd; lia|].
    destruct (bool_decide (lower name = py "meta")); [simpl in Hd; lia|].
    cbn [orb] in Hd. apply Nat.succ_lt_mono, foldr_max_lt in Hd.
    assert (Hc : mapM (process_node_fuel lower fuel) contents = None).
    { apply mapM_None_Exists.
      clear name attrs. induction IH as [|c l Hc _ IHl].
      - by apply Exists_nil in Hd.
      - apply Exists_cons in Hd as [Hd|Hd]; [left; auto|right; auto]. }
    rewrite Hc. by destruct (bool_decide (_ = py "title")).
Qed.

Lemma process_node_fuel_Some_iff node fuel :
  is_Some (process_node_fuel lower fuel node)
  <-> (call_depth lower node <= fuel)%nat.
Proof.
  split.
  - intros Hs. destruct (decide (call_depth lower node <= fuel)%nat);
      [done|].
    rewrite process_node_fuel_short in Hs by lia. by destruct Hs.
  - intros Hd. by rewrite process_node_fuel_within.
Qed.

(** Taking the comments out makes no tree deeper. *)
Lemma call_depth_extract_comments node :
  (call_depth lower (extract_comments node) <= call_depth lower node)%nat.
Proof.
  induction node as [cls data| |name attrs contents IH]
    using PageElement_ind'; [done|done|].
  cbn [extract_comments call_depth]. destruct (_ || _); [done|].
  apply le_n_S.
  induction IH as [|child rest Hchild _ IHrest]; [done|].
  cbn [omap list_omap]. destruct (isinstance_Comment child); simpl; lia.
Qed.

End CallDepthFacts.

(** * The claims *)

Section Claims.

(** Python's [str.lower()]: any function that lowers ASCII strings as
    [ascii_lower] does. *)
Variable lower : pystr -> pystr.
Hypothesis lower_ascii :
  forall s, is_ascii s = true -> lower s = ascii_lower s.

Ltac run_example :=
  rewrite (process_node_ascii lower lower_ascii) by (vm_compute; reflexivity);
  vm_compute; reflexivity.

Ltac skip_branch :=
  first [ rewrite bool_decide_eq_false_2 by assumption
        | rewrite bool_decide_eq_true_2 by assumption ].

(** C1. A tag whose lower-cased name is [meta] and whose lower-cased [name]
    is [description], or whose lower-cased [property] is [og:description],
    reduces to its trimmed [content] between [<Description>] and
    [</Description>] when that is not empty and to the empty string when it
    is; any other [meta] tag reduces to the empty string; absent attributes
    read as the empty string; the contents of the tag are not visited (one
    call suffices, and the result does not depend on them).  The two
    documents of the claim, and the [og:description] one, reduce as
    stated. *)
Theorem meta_rule :
  (forall name attrs contents,
      lower name = py "meta" ->
      let content := strip (default [] (attrs !! py "content")) in
      let matches :=
        lower (default [] (attrs !! py "name")) = py "description"
        \/ lower (default [] (attrs !! py "property")) = py "og:description"
      in
      (matches -> content <> [] ->
       process_node lower (Tag name attrs contents)
       = py "<Description>" ++ content ++ py "</Description>")
      /\ (matches -> content = [] ->
          process_node lower (Tag name attrs contents) = [])
      /\ (~ matches -> process_node lower (Tag name attrs contents) = [])
      /\ process_node_fuel lower 1 (Tag name attrs contents)
         = Some (process_node lower (Tag name attrs contents))
      /\ (forall contents',
             process_node lower (Tag name attrs contents')
             = process_node lower (Tag name attrs contents)))
  /\ process_node lower meta_description
     = py "<Description>Hello world</Description>"
  /\ process_node lower meta_og = py "<Description>X</Description>"
  /\ process_node lower meta_keywords = [].
Proof.
  split; [|repeat split; run_example].
  intros name attrs contents Hm content matches.
  assert (E : forall c, process_node lower (Tag name attrs c)
                        = process_meta lower attrs).
  { intros c. rewrite process_node_tag. cbv zeta. rewrite Hm.
    rewrite (bool_decide_eq_false_2 _ meta_not_ignored).
    by rewrite bool_decide_eq_true_2. }
  assert (Hyes : matches -> process_meta lower attrs
                 = if truthy content
                   then py "<Description>" ++ content ++ py "</Description>"
                   else []).
  { intros Hmatch. unfold process_meta, node_get. fold content.
    destruct Hmatch as [Hn|Hp].
    - by rewrite (bool_decide_eq_true_2 _ Hn).
    - rewrite (bool_decide_eq_true_2 _ Hp). by rewrite orb_true_r. }
  repeat split.
  - intros Hmatch Hc. rewrite E, (Hyes Hmatch). by destruct content.
  - intros Hmatch Hc. rewrite E, (Hyes Hmatch). by rewrite Hc.
  - intros Hno. rewrite E. unfold process_meta, node_get.
    rewrite !bool_decide_eq_false_2; [done| |]; intros ?; apply Hno.
    + by right.
    + by left.
  - rewrite E. cbn [process_node_fuel]. cbv zeta. rewrite Hm.
    rewrite (bool_decide_eq_false_2 _ meta_not_ignored).
    by rewrite bool_decide_eq_true_2.
  - intros c. by rewrite !E.
Qed.

(** C2. A tag that is not ignored and is neither [meta] nor [title]: with
    [c] the trim of its reduced children joined in document order, it
    reduces to the empty string when [c] is empty, to [c] between [<tag>]
    and [</tag>] (the lower-cased name) when the name is in the allow-set,
    and to [c] alone when it is not.  The allow-set is the one the claim
    lists, and [<div><p>Hi</p><span>  </span></div>] reduces to
    [<div><p>Hi</p></div>]. *)
Theorem element_rule :
  (forall name attrs contents,
      let tag := lower name in
      let c := strip (join (process_node lower <$> contents)) in
      tag ∉ IGNORE_TAGS -> tag <> py "meta" -> tag <> py "title" ->
      (c = [] -> process_node lower (Tag name attrs contents) = [])
      /\ (c <> [] -> tag ∈ allowed_wrap ->
          process_node lower (Tag name attrs contents)
          = py "<" ++ tag ++ py ">" ++ c ++ py "</" ++ tag ++ py ">")
      /\ (c <> [] -> tag ∉ allowed_wrap ->
          process_node lower (Tag name attrs contents) = c))
  /\ (forall t,
         t ∈ allowed_wrap <->
         t ∈ [py "html"; py "head"; py "body"; py "div"; py "span";
              py "p"; py "h1"; py "h2"; py "h3"; py "h4"; py "h5";
              py "h6"; py "li"; py "ul"; py "ol"; py "a"; py "button";
              py "nav"; py "form"])
  /\ process_node lower div_p_span = py "<div><p>Hi</p></div>".
Proof.
  split; [|split; [apply allowed_wrap_elems|run_example]].
  intros name attrs contents tag c Hi Hm Ht.
  rewrite process_node_tag. cbv zeta. fold tag. fold c.
  do 3 skip_branch.
  repeat split.
  - intros ->. done.
  - intros Hc Ha. skip_branch. by destruct c.
  - intros Hc Ha. skip_branch. by destruct c.
Qed.

(** C3. A tag whose lower-cased name is in the ignore-set reduces to the
    empty string; its contents are not visited (one call suffices) and do
    not influence the result.  The ignore-set is the one the claim lists,
    and [<div><script>ignored</script></div>] reduces to the empty
    string. *)
Theorem ignored_rule :
  (forall name attrs contents,
      lower name ∈ IGNORE_TAGS ->
      process_node lower (Tag name attrs contents) = []
      /\ process_node_fuel lower 1 (Tag name attrs contents) = Some []
      /\ (forall contents',
             process_node lower (Tag name attrs contents')
             = process_node lower (Tag name attrs contents)))
  /\ (forall t,
         t ∈ IGNORE_TAGS <->
         t ∈ [py "script"; py "style"; py "noscript"; py "iframe";
              py "input"; py "img"; py "link"])
  /\ process_node lower div_script = [].
Proof.
  split; [|split; [apply IGNORE_TAGS_elems|run_example]].
  intros name attrs contents Hi.
  assert (E : forall c, process_node lower (Tag name attrs c) = []).
  { intros c. rewrite process_node_tag. cbv zeta. by skip_branch. }
  repeat split.
  - apply E.
  - cbn [process_node_fuel]. cbv zeta. by skip_branch.
  - intros c. by rewrite !E.
Qed.

(** C4. A tag whose lower-cased name is [title] reduces to the trim of its
    reduced children joined in document order, between [<Title>] and
    [</Title>], when that is not empty, and to the empty string when it
    is.  [<title> A <b>B</b> </title>] reduces to [<Title>AB</Title>]. *)
Theorem title_rule :
  (forall name attrs contents,
      lower name = py "title" ->
      let content := strip (join (process_node lower <$> contents)) in
      (content <> [] ->
       process_node lower (Tag name attrs contents)
       = py "<Title>" ++ content ++ py "</Title>")
      /\ (content = [] ->
          process_node lower (Tag name attrs contents) = []))
  /\ process_node lower title_doc = py "<Title>AB</Title>".
Proof.
  split; [|run_example].
  intros name attrs contents Ht content.
  rewrite process_node_tag. cbv zeta. fold content. rewrite Ht.
  rewrite (bool_decide_eq_false_2 _ title_not_ignored).
  rewrite (bool_decide_eq_false_2 _ title_not_meta).
  rewrite bool_decide_eq_true_2 by done.
  split.
  - intros Hc. by destruct content.
  - intros ->. done.
Qed.

(** C5. A [Comment] reduces to the empty string whatever it holds; any
    other string reduces to its data without the whitespace at its two
    ends, which is the empty string when nothing else is left.  A
    [Comment] is a [NavigableString] too, and the [Comment] test
    decides. *)
Theorem string_rule :
  (forall data, process_node lower (NavigableString ClsComment data) = [])
  /\ (forall cls data,
         cls <> ClsComment ->
         process_node lower (NavigableString cls data) = strip data
         /\ stripped (strip data)
         /\ (exists l r,
                forallb isspace l = true /\ forallb isspace r = true
                /\ data = l ++ strip data ++ r)
         /\ (strip data = [] ->
             process_node lower (NavigableString cls data) = []))
  /\ (forall node,
         isinstance_Comment node = true ->
         isinstance_NavigableString node = true
         /\ process_node lower node = []).
Proof.
  split; [done|split].
  - intros cls data Hc.
    assert (E : process_node lower (NavigableString cls data) = strip data).
    { rewrite process_node_string. by destruct cls. }
    split; [exact E|]. split; [apply strip_stripped|].
    split; [apply strip_split|]. intros He. by rewrite E.
  - intros node Hc. by destruct node as [[] ?| |].
Qed.

(** C6. [minify_html] replaces every maximal run of whitespace by one
    space and trims the result; space, tab, newline, carriage return and
    form feed are whitespace; it is idempotent; and the document of the
    claim gives [a b c]. *)
Theorem minify_html_spec :
  (forall x,
      exists t,
        collapsed x t /\ (forall t', collapsed x t' -> t' = t)
        /\ minify_html x = strip t
        /\ stripped (minify_html x)
        /\ exists l r,
            forallb isspace l = true /\ forallb isspace r = true
            /\ t = l ++ minify_html x ++ r)
  /\ forallb isspace [0x20; 0x09; 0x0A; 0x0D; 0x0C] = true
  /\ (forall x, minify_html (minify_html x) = minify_html x)
  /\ minify_html (py " a " ++ [0x0A; 0x0A] ++ py " b " ++ [0x09] ++ py " c ")
     = py "a b c".
Proof.
  split; [|split; [done|split; [apply minify_html_idemp|]]].
  - intros x. exists (re_sub_ws x). split; [apply re_sub_ws_collapsed|].
    split; [apply collapsed_re_sub_ws|]. split; [done|].
    split; [apply strip_stripped|apply strip_split].
  - vm_compute. reflexivity.
Qed.

(** C7, amended. [process_node] returns a string on every tree, whatever the
    variant of its root, when the call stack holds the nested calls the
    tree takes, one for each level of nesting it visits and never more than
    the depth of the tree; when the stack holds fewer, the call fails
    instead of returning.  Where it returns: an object that is neither a
    string nor named reduces to the empty string.  An absent attribute reads
    as the empty string, so a [meta] tag without [content] reduces to the
    empty string; a tag outside every set passes its reduced children
    through; and apart from [meta], a tag whose reduced children trim to
    nothing reduces to the empty string. *)
Theorem process_node_within_stack :
  (forall node fuel,
      (call_depth lower node <= fuel)%nat ->
      process_node_fuel lower fuel node = Some (process_node lower node))
  /\ (forall node fuel,
         (fuel < call_depth lower node)%nat ->
         process_node_fuel lower fuel node = None)
  /\ (forall node,
         (1 <= call_depth lower node)%nat
         /\ (call_depth lower node <= depth node)%nat)
  /\ (forall node,
         isinstance_NavigableString node = false ->
         hasattr_name node = false ->
         process_node lower node = [])
  /\ (forall (attrs : gmap (list N) (list N)) key,
         attrs !! key = None -> node_get attrs key = [])
  /\ (forall name attrs contents,
         lower name = py "meta" -> attrs !! py "content" = None ->
         process_node lower (Tag name attrs contents) = [])
  /\ (forall name attrs contents,
         lower name ∉ IGNORE_TAGS -> lower name <> py "meta" ->
         lower name <> py "title" -> lower name ∉ allowed_wrap ->
         process_node lower (Tag name attrs contents)
         = strip (join (process_node lower <$> contents)))
  /\ (forall name attrs contents,
         lower name <> py "meta" ->
         strip (join (process_node lower <$> contents)) = [] ->
         process_node lower (Tag name attrs contents) = []).
Proof.
  repeat split.
  - intros node fuel. apply process_node_fuel_within.
  - intros node fuel. apply process_node_fuel_short.
  - apply call_depth_pos.
  - apply call_depth_le_depth.
  - intros node Hs Hn. by destruct node.
  - intros attrs key Hk. unfold node_get. by rewrite Hk.
  - intros name attrs contents Hm Hc.
    rewrite process_node_tag. cbv zeta. rewrite Hm.
    rewrite (bool_decide_eq_false_2 _ meta_not_ignored).
    rewrite bool_decide_eq_true_2 by done.
    unfold process_meta, node_get. rewrite Hc. by destruct (_ || _).
  - intros name attrs contents Hi Hm Ht Ha.
    rewrite process_node_tag. cbv zeta. do 3 skip_branch.
    destruct (strip _); [done|]. by skip_branch.
  - intros name attrs contents Hm Hc.
    rewrite process_node_tag. cbv zeta. rewrite Hc.
    rewrite (bool_decide_eq_false_2 _ Hm).
    destruct (bool_decide (_ ∈ IGNORE_TAGS)); [done|].
    by destruct (bool_decide _).
Qed.

(** C8. The reduced children are joined in document order with nothing
    between them: a tag of the allow-set whose result is not empty reduces
    to the join of its reduced children between [<tag>] and [</tag>]; with
    three children that is the first, the second and the third result in
    this order; [title] and transparent tags join their children the same
    way; and joining distributes over appending child sequences. *)
Theorem child_order :
  (forall name attrs contents,
      lower name ∈ allowed_wrap ->
      process_node lower (Tag name attrs contents) <> [] ->
      process_node lower (Tag name attrs contents)
      = py "<" ++ lower name ++ py ">"
        ++ join (process_node lower <$> contents)
        ++ py "</" ++ lower name ++ py ">")
  /\ (forall name attrs text1 elementA text2,
         lower name ∈ allowed_wrap ->
         process_node lower (Tag name attrs [text1; elementA; text2]) <> [] ->
         process_node lower (Tag name attrs [text1; elementA; text2])
         = py "<" ++ lower name ++ py ">"
           ++ (process_node lower text1 ++ process_node lower elementA
               ++ process_node lower text2)
           ++ py "</" ++ lower name ++ py ">")
  /\ (forall name attrs contents,
         lower name = py "title" ->
         process_node lower (Tag name attrs contents) <> [] ->
         process_node lower (Tag name attrs contents)
         = py "<Title>" ++ join (process_node lower <$> contents)
           ++ py "</Title>")
  /\ (forall name attrs contents,
         lower name ∉ IGNORE_TAGS -> lower name <> py "meta" ->
         lower name <> py "title" -> lower name ∉ allowed_wrap ->
         process_node lower (Tag name attrs contents)
         = join (process_node lower <$> contents))
  /\ (forall before after,
         join (process_node lower <$> (before ++ after))
         = join (process_node lower <$> before)
           ++ join (process_node lower <$> after)).
Proof.
  assert (Hwrap : forall name attrs contents,
             lower name ∈ allowed_wrap ->
             process_node lower (Tag name attrs contents) <> [] ->
             process_node lower (Tag name attrs contents)
             = py "<" ++ lower name ++ py ">"
               ++ join (process_node lower <$> contents)
               ++ py "</" ++ lower name ++ py ">").
  { intros name attrs contents Ha.
    destruct (allowed_wrap_branch _ Ha) as (Hi & Hm & Ht).
    rewrite process_node_tag. cbv zeta. rewrite strip_join_children.
    do 3 skip_branch. destruct (truthy _); [|done]. cbn [negb].
    by skip_branch. }
  split; [exact Hwrap|]. split; [|split; [|split]].
  - intros name attrs t1 eA t2 Ha Hne.
    rewrite (Hwrap _ _ _ Ha Hne). unfold join. simpl.
    by rewrite app_nil_r.
  - intros name attrs contents Ht.
    rewrite process_node_tag. cbv zeta. rewrite strip_join_children, Ht.
    rewrite (bool_decide_eq_false_2 _ title_not_ignored).
    rewrite (bool_decide_eq_false_2 _ title_not_meta).
    rewrite bool_decide_eq_true_2 by done.
    by destruct (truthy _).
  - intros name attrs contents Hi Hm Ht Ha.
    rewrite process_node_tag. cbv zeta. rewrite strip_join_children.
    do 3 skip_branch. destruct (join _); [done|]. by skip_branch.
  - intros before after. unfold join. by rewrite fmap_app, concat_app.
Qed.

(** C9. No result of [process_node] has whitespace at either end: it is
    its own trim, and so is every join of reduced children, at whose edges
    the trim of the code has nothing to remove. *)
Theorem no_edge_whitespace :
  (forall node, strip (process_node lower node) = process_node lower node)
  /\ (forall node,
         head_ok (process_node lower node) = true
         /\ head_ok (reverse (process_node lower node)) = true)
  /\ (forall contents,
         strip (join (process_node lower <$> contents))
         = join (process_node lower <$> contents)).
Proof.
  split; [|split].
  - intros node. apply strip_fixed, process_node_stripped.
  - intros node. apply stripped_iff, process_node_stripped.
  - apply strip_join_children.
Qed.

(** C10. The attributes of a tag whose lower-cased name is not [meta] do
    not reach the result: two such tags with the same name and contents
    reduce alike (an anchor with an [href] as one without).  A [meta] tag
    is read through [name], [property] and [content] only. *)
Theorem attrs_noninterference :
  (forall name attrs attrs' contents,
      lower name <> py "meta" ->
      process_node lower (Tag name attrs contents)
      = process_node lower (Tag name attrs' contents))
  /\ (forall name attrs attrs' contents contents',
         lower name = py "meta" ->
         attrs !! py "name" = attrs' !! py "name" ->
         attrs !! py "property" = attrs' !! py "property" ->
         attrs !! py "content" = attrs' !! py "content" ->
         process_node lower (Tag name attrs contents)
         = process_node lower (Tag name attrs' contents'))
  /\ (forall url contents,
         process_node lower (Tag (py "a") {[ py "href" := url ]} contents)
         = process_node lower (Tag (py "a") ∅ contents)).
Proof.
  assert (Hne : forall name attrs attrs' contents,
             lower name <> py "meta" ->
             process_node lower (Tag name attrs contents)
             = process_node lower (Tag name attrs' contents)).
  { intros name attrs attrs' contents Hm.
    rewrite !process_node_tag. cbv zeta.
    by rewrite (bool_decide_eq_false_2 _ Hm). }
  split; [exact Hne|split].
  - intros name attrs attrs' contents contents' Hm Hn Hp Hc.
    rewrite !process_node_tag. cbv zeta. rewrite Hm.
    rewrite (bool_decide_eq_false_2 _ meta_not_ignored).
    rewrite bool_decide_eq_true_2 by done.
    unfold process_meta, node_get. by rewrite Hn, Hp, Hc.
  - intros url contents. apply Hne.
    rewrite lower_ascii by (vm_compute; reflexivity). compute_done.
Qed.

End Claims.

(** * The claims at sample documents *)

(** [ascii_lower] is a lowering function of the kind the claims assume. *)
Lemma ascii_lower_ok s : is_ascii s = true -> ascii_lower s = ascii_lower s.
Proof. reflexivity. Qed.

Lemma meta_rule_witness :
  ascii_lower (py "META") = py "meta"
  /\ process_node ascii_lower meta_upper = py "<Description>X</Description>".
Proof.
  split; [vm_compute; reflexivity|].
  destruct (meta_rule ascii_lower ascii_lower_ok) as [H _].
  pose proof (H (py "META")
                {[ py "property" := py "OG:Description";
                   py "content" := py " X " ]}
                [text "child"] eq_refl) as H'.
  cbv zeta in H'. destruct H' as [H1 _].
  unfold meta_upper. rewrite H1.
  - vm_compute. reflexivity.
  - right. vm_compute. reflexivity.
  - vm_compute. discriminate.
Defined.

Lemma element_rule_witness :
  (ascii_lower (py "DIV") ∉ IGNORE_TAGS)
  /\ ascii_lower (py "DIV") ∈ allowed_wrap
  /\ process_node ascii_lower
       (elem "DIV" [elem "p" [text "Hi"]; elem "span" [text "  "]])
     = py "<div><p>Hi</p></div>".
Proof.
  split; [compute_done|]. split; [compute_done|].
  destruct (element_rule ascii_lower ascii_lower_ok) as [H _].
  pose proof (H (py "DIV") ∅ [elem "p" [text "Hi"]; elem "span" [text "  "]])
    as H'.
  cbv zeta in H'.
  destruct H' as (_ & H2 & _); [compute_done|compute_done|compute_done|].
  unfold elem at 1. rewrite H2.
  - vm_compute. reflexivity.
  - vm_compute. discriminate.
  - compute_done.
Defined.

Lemma ignored_rule_witness :
  ascii_lower (py "Script") ∈ IGNORE_TAGS
  /\ process_node ascii_lower (elem "Script" [text "ignored"]) = [].
Proof.
  split; [compute_done|].
  destruct (ignored_rule ascii_lower ascii_lower_ok) as [H _].
  destruct (H (py "Script") ∅ [text "ignored"]) as [H1 _]; [compute_done|].
  exact H1.
Defined.

Lemma title_rule_witness :
  ascii_lower (py "TITLE") = py "title"
  /\ process_node ascii_lower
       (elem "TITLE" [text " A "; elem "b" [text "B"]; text " "])
     = py "<Title>AB</Title>".
Proof.
  split; [vm_compute; reflexivity|].
  destruct (title_rule ascii_lower ascii_lower_ok) as [H _].
  pose proof (H (py "TITLE") ∅
                [text " A "; elem "b" [text "B"]; text " "] eq_refl) as H'.
  cbv zeta in H'. destruct H' as [H1 _].
  unfold elem at 1. rewrite H1.
  - vm_compute. reflexivity.
  - vm_compute. discriminate.
Defined.

Lemma string_rule_witness :
  ClsDoctype <> ClsComment
  /\ process_node ascii_lower (NavigableString ClsDoctype (py " html "))
     = py "html".
Proof.
  split; [discriminate|].
  destruct (string_rule ascii_lower) as (_ & H & _).
  destruct (H ClsDoctype (py " html ")) as [H1 _]; [discriminate|].
  rewrite H1. vm_compute. reflexivity.
Defined.

Lemma minify_html_spec_witness :
  collapsed [0x20; 0x61; 0x09; 0x0A; 0x62] [0x20; 0x61; 0x20; 0x62]
  /\ minify_html [0x20; 0x61; 0x09; 0x0A; 0x62] = [0x61; 0x20; 0x62].
Proof.
  assert (Hc : collapsed [0x20; 0x61; 0x09; 0x0A; 0x62]
                         [0x20; 0x61; 0x20; 0x62]).
  { apply (collapsed_run [0x20] [0x61; 0x09; 0x0A; 0x62] [0x61; 0x20; 0x62]);
      [discriminate|reflexivity|reflexivity|].
    apply collapsed_char; [reflexivity|].
    apply (collapsed_run [0x09; 0x0A] [0x62] [0x62]);
      [discriminate|reflexivity|reflexivity|].
    apply collapsed_char; [reflexivity|]. apply collapsed_nil. }
  split; [exact Hc|].
  destruct minify_html_spec as [H _].
  destruct (H [0x20; 0x61; 0x09; 0x0A; 0x62]) as (t & _ & Huniq & Hm & _).
  rewrite Hm, <- (Huniq _ Hc). vm_compute. reflexivity.
Defined.

Lemma process_node_within_stack_witness :
  (call_depth ascii_lower div_p_span <= 3)%nat
  /\ process_node_fuel ascii_lower 3 div_p_span
     = Some (py "<div><p>Hi</p></div>")
  /\ (2 < call_depth ascii_lower div_p_span)%nat
  /\ process_node_fuel ascii_lower 2 div_p_span = None.
Proof.
  destruct (process_node_within_stack ascii_lower) as (Hin & Hout & _).
  split; [vm_compute; lia|]. split.
  - rewrite (Hin div_p_span 3%nat); [|vm_compute; lia].
    vm_compute. reflexivity.
  - split; [vm_compute; lia|].
    apply (Hout div_p_span 2%nat). vm_compute. lia.
Defined.

(** C7 as it was claimed fails at [deep_page]: a page of a thousand nested
    [div] tags is a finite tree, and no stack of a thousand frames holds the
    calls it takes. *)
Lemma process_node_deep_page_fails :
  process_node_fuel ascii_lower recursion_limit deep_page = None
  /\ ~ (forall node,
           exists out,
             process_node_fuel ascii_lower recursion_limit node = Some out).
Proof.
  assert (E : process_node_fuel ascii_lower recursion_limit deep_page = None).
  { apply process_node_fuel_short. vm_compute. lia. }
  split; [exact E|]. intros H. destruct (H deep_page) as [out Hout].
  rewrite E in Hout. discriminate.
Qed.

Lemma child_order_witness :
  ascii_lower (py "ul") ∈ allowed_wrap
  /\ process_node ascii_lower
       (elem "ul" [text " a "; elem "li" [text "b"]; text " c "])
     = py "<ul>" ++ (py "a" ++ py "<li>b</li>" ++ py "c") ++ py "</ul>".
Proof.
  split; [compute_done|].
  destruct (child_order ascii_lower) as (_ & H & _).
  unfold elem at 1.
  rewrite (H (py "ul") ∅ (text " a ") (elem "li" [text "b"]) (text " c ")).
  - vm_compute. reflexivity.
  - compute_done.
  - vm_compute. discriminate.
Defined.

Lemma attrs_noninterference_witness :
  ascii_lower (py "a") <> py "meta"
  /\ process_node ascii_lower
       (Tag (py "a") {[ py "href" := py "https://example.org/" ]} [text "go"])
     = process_node ascii_lower
         (Tag (py "a") {[ py "class" := py "btn" ]} [text "go"]).
Proof.
  split; [compute_done|].
  destruct (attrs_noninterference ascii_lower ascii_lower_ok) as (H & _).
  apply H. compute_done.
Defined.


(** * Further properties of the normalizer *)

Lemma visible_app a b : visible (a ++ b) = visible a ++ visible b.
Proof. apply filter_app. Qed.

Lemma visible_nil_iff s : visible s = [] <-> forallb isspace s = true.
Proof.
  unfold visible. induction s as [|c s IH]; simpl; [done|].
  destruct (isspace c) eqn:Hc; simpl.
  - rewrite filter_cons_False by (rewrite Hc; done). exact IH.
  - rewrite filter_cons_True by done. done.
Qed.

Lemma visible_sub_ws b s : visible (sub_ws b s) = visible s.
Proof.
  unfold visible. revert b. induction s as [|c s IH]; intros b; simpl; [done|].
  destruct (isspace c) eqn:Hc.
  - rewrite (filter_cons_False _ c s) by (rewrite Hc; done).
    destruct b; [apply IH|].
    rewrite filter_cons_False by (vm_compute; done). apply IH.
  - rewrite !filter_cons_True by done. f_equal. apply IH.
Qed.

Lemma visible_strip s : visible (strip s) = visible s.
Proof.
  destruct (strip_split s) as (l & r & Hl & Hr & E).
  rewrite E at 2. rewrite !visible_app.
  apply visible_nil_iff in Hl, Hr. rewrite Hl, Hr. simpl.
  by rewrite app_nil_r.
Qed.

Lemma sub_ws_length b s : (length (sub_ws b s) <= length s)%nat.
Proof.
  revert b. induction s as [|c s IH]; intros b; simpl; [lia|].
  pose proof (IH true). pose proof (IH false).
  destruct (isspace c); [destruct b|]; simpl; lia.
Qed.

Lemma strip_length s : (length (strip s) <= length s)%nat.
Proof.
  destruct (strip_split s) as (l & r & _ & _ & E).
  rewrite E at 2. rewrite !length_app. lia.
Qed.

Lemma tidy_elem p s c :
  tidy p s = true -> c ∈ s -> isspace c = true -> c = SPACE.
Proof.
  revert p. induction s as [|d s IH]; intros p Ht Hin Hc.
  - by apply elem_of_nil in Hin.
  - simpl in Ht. apply elem_of_cons in Hin as [->|Hin].
    + rewrite Hc in Ht. apply andb_true_iff in Ht as [Ht _].
      apply andb_true_iff in Ht as [Ht _]. by apply N.eqb_eq in Ht.
    + destruct (isspace d).
      * apply andb_true_iff in Ht as [_ Ht]. eauto.
      * eauto.
Qed.

Lemma tidy_adjacent p l1 a b l2 :
  tidy p (l1 ++ a :: b :: l2) = true -> isspace a = true -> isspace b = false.
Proof.
  revert p. induction l1 as [|d l1 IH]; intros p Ht Ha; simpl in Ht.
  - rewrite Ha in Ht. apply andb_true_iff in Ht as [_ Ht].
    destruct (isspace b); [|done].
    apply andb_true_iff in Ht as [Ht _].
    apply andb_true_iff in Ht as [_ Ht]. done.
  - destruct (isspace d).
    + apply andb_true_iff in Ht as [_ Ht]. eauto.
    + eauto.
Qed.

(** Code points that are not whitespace go through the substitution as they
    are, wherever they stand. *)
Lemma sub_ws_solid b a :
  forallb (fun c => negb (isspace c)) a = true -> sub_ws b a = a.
Proof.
  revert b. induction a as [|c a IH]; intros b Ha; simpl in *; [done|].
  apply andb_true_iff in Ha as [Hc Ha]. apply negb_true_iff in Hc.
  by rewrite Hc, IH.
Qed.

Lemma sub_ws_app_solid b s a :
  forallb (fun c => negb (isspace c)) a = true ->
  sub_ws b (s ++ a) = sub_ws b s ++ a.
Proof.
  intros Ha. revert b. induction s as [|c s IH]; intros b; simpl.
  - by apply sub_ws_solid.
  - destruct (isspace c); [destruct b|]; by rewrite IH.
Qed.

Lemma sub_ws_solid_app a s :
  forallb (fun c => negb (isspace c)) a = true ->
  sub_ws false (a ++ s) = a ++ sub_ws false s.
Proof.
  induction a as [|c a IH]; intros Ha; simpl in *; [done|].
  apply andb_true_iff in Ha as [Hc Ha]. apply negb_true_iff in Hc.
  by rewrite Hc, IH.
Qed.

Lemma re_sub_ws_stripped s : stripped s -> stripped (re_sub_ws s).
Proof.
  rewrite !stripped_iff. unfold re_sub_ws. intros [Hh Hl]. split.
  - destruct s as [|c s]; simpl in *; [done|].
    apply negb_true_iff in Hh. rewrite Hh. simpl. by rewrite Hh.
  - destruct s as [|c s _] using rev_ind; [done|].
    rewrite reverse_snoc in Hl. simpl in Hl.
    rewrite sub_ws_app_solid by (simpl; by rewrite Hl).
    rewrite reverse_snoc. done.
Qed.

(** X1. [minify_html] neither drops, changes nor reorders a code point that
    is not whitespace. *)
Theorem minify_html_visible x : visible (minify_html x) = visible x.
Proof.
  unfold minify_html, re_sub_ws. by rewrite visible_strip, visible_sub_ws.
Qed.

(** X2. In the result of [minify_html] every whitespace code point is the
    space U+0020 and no two whitespace code points are adjacent. *)
Theorem minify_html_single_spaces x :
  (forall c, c ∈ minify_html x -> isspace c = true -> c = SPACE)
  /\ (forall l1 a b l2,
         minify_html x = l1 ++ a :: b :: l2 ->
         isspace a = true -> isspace b = false).
Proof.
  pose proof (minify_html_tidy x) as Ht. split.
  - intros c. by apply tidy_elem with (p := false).
  - intros l1 a b l2 E Ha. rewrite E in Ht.
    exact (tidy_adjacent _ _ _ _ _ Ht Ha).
Qed.

(** X3. [minify_html] never makes a string longer. *)
Theorem minify_html_length x : (length (minify_html x) <= length x)%nat.
Proof.
  unfold minify_html, re_sub_ws.
  pose proof (strip_length (sub_ws false x)).
  pose proof (sub_ws_length false x). lia.
Qed.

(** X4. [minify_html] returns the empty string exactly on the strings made of
    whitespace only, the empty string among them. *)
Theorem minify_html_empty_iff x :
  minify_html x = [] <-> forallb isspace x = true.
Proof.
  rewrite <- visible_nil_iff, <- (minify_html_visible x). split.
  - by intros ->.
  - intros Hv. apply visible_nil_iff in Hv.
    assert (Hs : stripped (minify_html x)) by apply strip_stripped.
    apply stripped_iff in Hs as [Hh _].
    destruct (minify_html x) as [|c m]; [done|]. simpl in *.
    apply andb_true_iff in Hv as [Hc _]. by rewrite Hc in Hh.
Qed.

(** * Further properties of the reducer *)

Lemma join_app a b : join (a ++ b) = join a ++ join b.
Proof. apply concat_app. Qed.

Lemma join_cons p ps : join (p :: ps) = p ++ join ps.
Proof. reflexivity. Qed.

Lemma join_nil_iff pieces : join pieces = [] <-> Forall (fun p => p = []) pieces.
Proof.
  unfold join. induction pieces as [|p ps IH]; simpl.
  - split; [constructor|done].
  - split.
    + intros E. apply app_eq_nil in E as [-> E]. constructor; [done|tauto].
    + intros H. inversion H as [|? ? -> Hps]. simpl. tauto.
Qed.

Lemma find_tag_named name node found :
  find_tag name node = Some found -> is_tag_named name found = true.
Proof.
  revert found.
  induction node as [cls data| |n attrs contents IH]
    using PageElement_ind'; intros found; [done|done|].
  simpl. induction IH as [|child rest Hchild _ IHrest]; [done|].
  destruct (is_tag_named name child) eqn:Hn.
  - intros [= <-]. exact Hn.
  - destruct (find_tag name child) as [f|] eqn:Hf.
    + intros [= <-]. by apply Hchild.
    + exact IHrest.
Qed.

Lemma is_tag_named_extract name node :
  is_tag_named name (extract_comments node) = is_tag_named name node.
Proof. by destruct node. Qed.

Lemma find_tag_extract_comments name node :
  find_tag name (extract_comments node)
  = extract_comments <$> find_tag name node.
Proof.
  induction node as [cls data| |n attrs contents IH]
    using PageElement_ind'; [done|done|].
  simpl. induction IH as [|child rest Hchild _ IHrest]; [done|].
  simpl. destruct (isinstance_Comment child) eqn:Hc.
  - destruct child as [[] ?| |]; first [done|exact IHrest].
  - rewrite is_tag_named_extract.
    destruct (is_tag_named name child); [done|].
    rewrite Hchild. destruct (find_tag name child); [done|]. exact IHrest.
Qed.

Lemma comment_below_extract node :
  comment_below (extract_comments node) = false.
Proof.
  induction node as [cls data| |n attrs contents IH]
    using PageElement_ind'; [done|done|].
  cbn [extract_comments comment_below].
  induction IH as [|child rest Hchild _ IHrest]; [done|].
  cbn [omap list_omap]. destruct (isinstance_Comment child) eqn:Hc;
    [exact IHrest|].
  cbn [existsb]. rewrite Hchild, IHrest.
  by destruct child as [[] ?| |].
Qed.

Section ReducerMore.

Variable lower : pystr -> pystr.

(** A tag is reduced through the join of its reduced contents only. *)
Lemma process_node_contents name attrs contents contents' :
  join (process_node lower <$> contents)
  = join (process_node lower <$> contents') ->
  process_node lower (Tag name attrs contents)
  = process_node lower (Tag name attrs contents').
Proof. intros E. rewrite !process_node_tag. cbv zeta. by rewrite E. Qed.

Lemma process_node_transparent name attrs contents :
  lower name ∉ IGNORE_TAGS -> lower name <> py "meta" ->
  lower name <> py "title" -> lower name ∉ allowed_wrap ->
  process_node lower (Tag name attrs contents)
  = join (process_node lower <$> contents).
Proof.
  intros Hi Hm Ht Ha.
  rewrite process_node_tag. cbv zeta. rewrite strip_join_children.
  rewrite !bool_decide_eq_false_2 by done.
  by destruct (join _).
Qed.

Lemma process_node_extract_comments node :
  process_node lower (extract_comments node) = process_node lower node.
Proof.
  induction node as [cls data| |name attrs contents IH]
    using PageElement_ind'; [done|done|].
  cbn [extract_comments]. apply process_node_contents.
  induction IH as [|child rest Hchild _ IHrest]; [done|].
  cbn [omap list_omap]. rewrite fmap_cons.
  destruct (isinstance_Comment child) eqn:Hc.
  - destruct child as [[] ?| |]; first [done|exact IHrest].
  - by rewrite fmap_cons, !join_cons, Hchild, IHrest.
Qed.

(** X5. A child that reduces to the empty string (a comment, an ignored tag,
    blank text, an emptied wrapper) can be dropped from its parent, or put
    into it anywhere, without changing what the parent reduces to. *)
Theorem empty_child_dropped name attrs before child after :
  process_node lower child = [] ->
  process_node lower (Tag name attrs (before ++ child :: after))
  = process_node lower (Tag name attrs (before ++ after)).
Proof.
  intros E. apply process_node_contents.
  by rewrite !fmap_app, fmap_cons, !join_app, join_cons, E.
Qed.

(** X6. A transparent tag (not ignored, not [meta], not [title], outside the
    allow-set) can be replaced by its contents in its parent: the parent
    reduces to the same string. *)
Theorem transparent_spliced name attrs before tname tattrs inner after :
  lower tname ∉ IGNORE_TAGS -> lower tname <> py "meta" ->
  lower tname <> py "title" -> lower tname ∉ allowed_wrap ->
  process_node lower
    (Tag name attrs (before ++ Tag tname tattrs inner :: after))
  = process_node lower (Tag name attrs (before ++ inner ++ after)).
Proof.
  intros Hi Hm Ht Ha. apply process_node_contents.
  rewrite !fmap_app, fmap_cons, !join_app, join_cons.
  by rewrite process_node_transparent, app_assoc.
Qed.

(** X7. A tag that is neither ignored nor [meta] reduces to the empty string
    exactly when every one of its children does. *)
Theorem tag_empty_iff name attrs contents :
  lower name ∉ IGNORE_TAGS -> lower name <> py "meta" ->
  process_node lower (Tag name attrs contents) = []
  <-> Forall (fun child => process_node lower child = []) contents.
Proof.
  intros Hi Hm.
  assert (Hj : join (process_node lower <$> contents) = []
               <-> Forall (fun child => process_node lower child = [])
                          contents).
  { by rewrite join_nil_iff, Forall_fmap. }
  rewrite <- Hj, process_node_tag. cbv zeta. rewrite strip_join_children.
  rewrite !bool_decide_eq_false_2 by done.
  destruct (join _) as [|c j]; cbn [truthy negb].
  - by destruct (bool_decide _).
  - by repeat destruct (bool_decide _).
Qed.

(** X8. The comment pass of [main] leaves no comment below the node, and it is
    of no consequence for the reducer: a tree reduces to the same string
    with its comments taken out and with them in place. *)
Theorem comment_pass_redundant node :
  comment_below (extract_comments node) = false
  /\ process_node lower (extract_comments node) = process_node lower node.
Proof.
  split; [apply comment_below_extract|apply process_node_extract_comments].
Qed.

(** X9. The final trim of [minify_html] finds nothing to remove after the
    reducer: on a reduced tree the normalizer is the substitution alone. *)
Theorem minify_html_after_process_node node :
  minify_html (process_node lower node) = re_sub_ws (process_node lower node).
Proof.
  unfold minify_html.
  apply strip_fixed, re_sub_ws_stripped, process_node_stripped.
Qed.

End ReducerMore.

(** * Properties of the program *)

Lemma select_root_extract_comments soup :
  select_root (extract_comments soup) = extract_comments (select_root soup).
Proof.
  unfold select_root. rewrite find_tag_extract_comments.
  by destruct (find_tag (py "html") soup).
Qed.

(** No whitespace code point is a surrogate, so the normalizer neither
    brings a surrogate in nor takes one out. *)
Lemma isspace_not_surrogate c : isspace c = true -> is_surrogate c = false.
Proof.
  unfold isspace, is_surrogate. intros H.
  destruct (0xD800 <=? c) eqn:E; [|done]. apply N.leb_le in E.
  repeat (apply orb_true_iff in H as [H|H]);
    try (apply andb_true_iff in H as [_ H]; apply N.leb_le in H; lia);
    apply N.eqb_eq in H; lia.
Qed.

Lemma utf8_encodable_visible s : utf8_encodable (visible s) = utf8_encodable s.
Proof.
  unfold utf8_encodable, visible.
  induction s as [|c s IH]; [done|]. simpl.
  destruct (isspace c) eqn:Hc.
  - rewrite filter_cons_False by (rewrite Hc; done).
    by rewrite (isspace_not_surrogate c Hc).
  - rewrite filter_cons_True by done. simpl. by rewrite IH.
Qed.

Lemma utf8_encodable_minify_html s :
  utf8_encodable (minify_html s) = utf8_encodable s.
Proof.
  by rewrite <- utf8_encodable_visible, minify_html_visible,
    utf8_encodable_visible.
Qed.

Section ProgramFacts.

Variable lower : pystr -> pystr.
Variable stack : nat.
Variable requests_get : pystr -> gmap (list N) (list N) -> Http.Response.
Variable BeautifulSoup : pystr -> PageElement.

(** [main] read through what the page is: the tests on the depth of the
    root and on the reduced text stand for the calls that may fail. *)
Lemma main_cases :
  let response := requests_get url headers in
  let root := select_root (BeautifulSoup (Http.text response)) in
  main lower stack requests_get BeautifulSoup
  = if bool_decide (Http.status_code response <> 200%Z)
    then {| effects :=
              [Print (request_error_text
                      ++ str_int (Http.status_code response))];
            raised := None |}
    else if bool_decide
              (call_depth lower (extract_comments root) <= stack)%nat
    then if utf8_encodable (process_node lower root)
         then {| effects :=
                   [OpenWrite output_file;
                    Write output_file (re_sub_ws (process_node lower root));
                    Print (saved_text ++ output_file ++ py "'")];
                 raised := None |}
         else {| effects := [OpenWrite output_file];
                 raised := Some UnicodeEncodeError |}
    else {| effects := []; raised := Some RecursionError |}.
Proof.
  intros response root. unfold main. cbv zeta. fold response.
  destruct (bool_decide (Http.status_code response <> 200%Z)); [done|].
  rewrite select_root_extract_comments. fold root.
  case_bool_decide as Hd.
  - rewrite (process_node_fuel_within lower _ _ Hd).
    rewrite process_node_extract_comments, utf8_encodable_minify_html.
    unfold minify_html.
    by rewrite (strip_fixed _ (re_sub_ws_stripped _
                                 (process_node_stripped lower root))).
  - by rewrite process_node_fuel_short by lia.
Qed.

(** X10. How [main] fails.  It raises [RecursionError] exactly when the
    status code is 200 and the root, its comments taken out, nests deeper
    than the stack allows, and then it has had no effect: no file is
    opened.  It raises [UnicodeEncodeError] exactly when the status code is
    200, the root fits the stack and its reduced text holds a surrogate, and
    then the output file has been opened and is left empty.  Whenever it
    raises, it has printed nothing. *)
Theorem main_raises :
  let response := requests_get url headers in
  let root := select_root (BeautifulSoup (Http.text response)) in
  let run := main lower stack requests_get BeautifulSoup in
  (raised run = Some RecursionError
   <-> Http.status_code response = 200%Z
       /\ (stack < call_depth lower (extract_comments root))%nat)
  /\ (raised run = Some UnicodeEncodeError
      <-> Http.status_code response = 200%Z
          /\ (call_depth lower (extract_comments root) <= stack)%nat
          /\ utf8_encodable (process_node lower root) = false)
  /\ (raised run = Some RecursionError -> effects run = [])
  /\ (raised run = Some UnicodeEncodeError ->
      effects run = [OpenWrite output_file])
  /\ (forall e line, raised run = Some e -> Print line ∉ effects run).
Proof.
  intros response root run. subst run. rewrite main_cases.
  fold response. fold root.
  case_bool_decide as Hs;
    [|case_bool_decide as Hd;
      [destruct (utf8_encodable (process_node lower root)) eqn:Hu|]];
    simpl.
  - repeat split; try done.
    + by intros [? _].
    + by intros [? _].
  - repeat split; try done.
    + intros [_ ?]. lia.
    + by intros (_ & _ & ?).
  - repeat split; try done.
    + intros [_ ?]. lia.
    + intros e line _ Hin.
      apply list_elem_of_singleton in Hin. discriminate.
  - repeat split; try done.
    + lia.
    + intros (_ & ? & _). lia.
    + intros e line _. apply not_elem_of_nil.
Qed.

(** X11. When the status code is 200, the root of the parsed page fits the
    stack and its reduced text holds no surrogate, [main] opens
    [extracted_text_structure.html], writes into it the whitespace
    substitution of the reduced root of the parsed page, prints one line and
    returns: neither the comment pass nor the final trim changes what is
    written. *)
Theorem main_writes_reduced_page :
  let response := requests_get url headers in
  let root := select_root (BeautifulSoup (Http.text response)) in
  Http.status_code response = 200%Z ->
  (call_depth lower root <= stack)%nat ->
  utf8_encodable (process_node lower root) = true ->
  main lower stack requests_get BeautifulSoup
  = {| effects :=
         [OpenWrite (py "extracted_text_structure.html");
          Write (py "extracted_text_structure.html")
                (re_sub_ws (process_node lower root));
          Print (saved_text ++ py "extracted_text_structure.html"
                 ++ py "'")];
       raised := None |}.
Proof.
  intros response root Hs Hd Hu. rewrite main_cases.
  fold response. fold root.
  rewrite bool_decide_eq_false_2 by (intros H; by apply H).
  pose proof (call_depth_extract_comments lower root).
  rewrite bool_decide_eq_true_2 by lia. by rewrite Hu.
Qed.

(** X12. [main] puts data into a file exactly when the status code is 200,
    the root of the parsed page, its comments taken out, fits the stack, and
    its reduced text holds no surrogate. *)
Theorem main_writes_iff :
  let response := requests_get url headers in
  let root := select_root (BeautifulSoup (Http.text response)) in
  (exists path data,
      Write path data ∈ effects (main lower stack requests_get BeautifulSoup))
  <-> Http.status_code response = 200%Z
      /\ (call_depth lower (extract_comments root) <= stack)%nat
      /\ utf8_encodable (process_node lower root) = true.
Proof.
  intros response root. rewrite main_cases. fold response. fold root.
  case_bool_decide as Hs;
    [|case_bool_decide as Hd;
      [destruct (utf8_encodable (process_node lower root)) eqn:Hu|]];
    simpl.
  - split; [|intros [? _]; done].
    intros (path & data & Hin).
    apply list_elem_of_singleton in Hin. discriminate.
  - split; [done|]. intros _. eexists _, _.
    apply list_elem_of_further, list_elem_of_here.
  - split; [|intros (_ & _ & ?); done].
    intros (path & data & Hin).
    apply list_elem_of_singleton in Hin. discriminate.
  - split; [|intros (_ & ? & _); done].
    intros (path & data & Hin). by apply not_elem_of_nil in Hin.
Qed.

Hypothesis lower_ascii :
  forall s, is_ascii s = true -> lower s = ascii_lower s.

(** X13. When the status code is 200 and the parsed page has an [html] tag
    that fits the stack and whose reduced text holds no surrogate, the data
    [main] writes is empty (every child of that tag reduces to the empty
    string) or it starts with [<html>] and ends with [</html>]; what stands
    outside the first [html] tag of the page never reaches the file. *)
Theorem main_output_bracketed name attrs contents :
  let response := requests_get url headers in
  let html := Tag name attrs contents in
  Http.status_code response = 200%Z ->
  find_tag (py "html") (BeautifulSoup (Http.text response)) = Some html ->
  (call_depth lower html <= stack)%nat ->
  utf8_encodable (process_node lower html) = true ->
  let body := join (process_node lower <$> contents) in
  let data := if truthy body
              then py "<html>" ++ re_sub_ws body ++ py "</html>"
              else [] in
  main lower stack requests_get BeautifulSoup
  = {| effects :=
         [OpenWrite output_file; Write output_file data;
          Print (saved_text ++ output_file ++ py "'")];
       raised := None |}.
Proof.
  intros response html Hs Hf Hd Hu body data. rewrite main_cases.
  fold response. unfold select_root. rewrite Hf. simpl default. fold html.
  rewrite bool_decide_eq_false_2 by (intros H; by apply H).
  pose proof (call_depth_extract_comments lower html).
  rewrite bool_decide_eq_true_2 by lia. rewrite Hu. do 3 f_equal.
  apply find_tag_named in Hf. simpl in Hf. apply bool_decide_eq_true in Hf.
  subst html name.
  assert (Hl : lower (py "html") = py "html").
  { rewrite lower_ascii by (vm_compute; reflexivity). vm_compute. reflexivity. }
  rewrite process_node_tag. cbv zeta. rewrite strip_join_children, Hl.
  fold body. subst data.
  rewrite (bool_decide_eq_false_2 (py "html" ∈ IGNORE_TAGS)) by compute_done.
  rewrite (bool_decide_eq_false_2 (py "html" = py "meta")) by compute_done.
  rewrite (bool_decide_eq_false_2 (py "html" = py "title")) by compute_done.
  rewrite (bool_decide_eq_true_2 (py "html" ∈ allowed_wrap)) by compute_done.
  destruct (truthy body); cbn [negb]; [|done].
  unfold re_sub_ws.
  change (py "<" ++ py "html" ++ py ">" ++ body ++ py "</" ++ py "html"
          ++ py ">")
    with (py "<html>" ++ body ++ py "</html>").
  rewrite sub_ws_solid_app by (vm_compute; reflexivity).
  by rewrite sub_ws_app_solid by (vm_compute; reflexivity).
Qed.

End ProgramFacts.

(** * The further properties at sample documents *)

Lemma minify_html_single_spaces_witness :
  SPACE ∈ minify_html (py " a " ++ [0x09; 0x0A] ++ py "b ")
  /\ isspace 0x62 = false.
Proof.
  split; [vm_compute; apply list_elem_of_further, list_elem_of_here|].
  destruct (minify_html_single_spaces (py " a " ++ [0x09; 0x0A] ++ py "b "))
    as [_ H].
  apply (H [0x61] SPACE 0x62 []); vm_compute; reflexivity.
Defined.

Lemma empty_child_dropped_witness :
  process_node ascii_lower (elem "script" [text "x"]) = []
  /\ process_node ascii_lower
       (elem "div" [text "a"; elem "script" [text "x"]; text "b"])
     = process_node ascii_lower (elem "div" [text "a"; text "b"]).
Proof.
  split; [vm_compute; reflexivity|].
  apply (empty_child_dropped ascii_lower (py "div") ∅ [text "a"]
           (elem "script" [text "x"]) [text "b"]).
  vm_compute. reflexivity.
Defined.

Lemma transparent_spliced_witness :
  (ascii_lower (py "section") ∉ allowed_wrap)
  /\ process_node ascii_lower
       (elem "body" [text "a"; elem "section" [elem "p" [text "b"]];
                     text "c"])
     = process_node ascii_lower
         (elem "body" [text "a"; elem "p" [text "b"]; text "c"]).
Proof.
  split; [compute_done|].
  apply (transparent_spliced ascii_lower (py "body") ∅ [text "a"]
           (py "section") ∅ [elem "p" [text "b"]] [text "c"]);
    compute_done.
Defined.

Lemma tag_empty_iff_witness :
  (ascii_lower (py "div") ∉ IGNORE_TAGS)
  /\ process_node ascii_lower
       (elem "div" [elem "script" [text "x"]; text "  "]) = [].
Proof.
  split; [compute_done|].
  apply (tag_empty_iff ascii_lower (py "div") ∅
           [elem "script" [text "x"]; text "  "]);
    [compute_done|compute_done|].
  repeat constructor.
Defined.

Lemma main_raises_witness :
  raised (main ascii_lower 500 (sample_get 200) (fun _ => surrogate_soup))
  = Some UnicodeEncodeError
  /\ effects (main ascii_lower 500 (sample_get 200) (fun _ => surrogate_soup))
     = [OpenWrite output_file]
  /\ raised (main ascii_lower recursion_limit (sample_get 200)
               (fun _ => deep_page))
     = Some RecursionError
  /\ effects (main ascii_lower recursion_limit (sample_get 200)
                (fun _ => deep_page))
     = [].
Proof.
  pose proof (main_raises ascii_lower 500 (sample_get 200)
                (fun _ => surrogate_soup)) as H.
  cbv zeta in H. destruct H as (_ & Hu & _ & He & _).
  assert (Hr : raised (main ascii_lower 500 (sample_get 200)
                         (fun _ => surrogate_soup))
               = Some UnicodeEncodeError).
  { apply Hu. split; [reflexivity|].
    split; [vm_compute; lia|vm_compute; reflexivity]. }
  split; [exact Hr|]. split; [exact (He Hr)|].
  pose proof (main_raises ascii_lower recursion_limit (sample_get 200)
                (fun _ => deep_page)) as H.
  cbv zeta in H. destruct H as (Hd & _ & He' & _).
  assert (Hr' : raised (main ascii_lower recursion_limit (sample_get 200)
                          (fun _ => deep_page))
                = Some RecursionError).
  { apply Hd. split; [reflexivity|]. vm_compute. lia. }
  split; [exact Hr'|exact (He' Hr')].
Defined.

Lemma main_writes_reduced_page_witness :
  Http.status_code (sample_get 200 url headers) = 200%Z
  /\ (call_depth ascii_lower (select_root sample_soup) <= 500)%nat
  /\ main ascii_lower 500 (sample_get 200) (fun _ => sample_soup)
     = {| effects :=
            [OpenWrite (py "extracted_text_structure.html");
             Write (py "extracted_text_structure.html")
                   (py "<html><head><Title>Digitum</Title></head>"
                    ++ py "<body><h1>Hello</h1><p>a b</p></body></html>");
             Print (saved_text ++ py "extracted_text_structure.html"
                    ++ py "'")];
          raised := None |}.
Proof.
  split; [reflexivity|]. split; [vm_compute; lia|].
  pose proof (main_writes_reduced_page ascii_lower 500 (sample_get 200)
                (fun _ => sample_soup)) as H.
  cbv zeta in H. rewrite H.
  - vm_compute. reflexivity.
  - reflexivity.
  - vm_compute. lia.
  - vm_compute. reflexivity.
Defined.

Lemma main_output_bracketed_witness :
  exists body,
    main ascii_lower 500 (sample_get 200) (fun _ => sample_soup)
    = {| effects :=
           [OpenWrite output_file;
            Write output_file (py "<html>" ++ body ++ py "</html>");
            Print (saved_text ++ output_file ++ py "'")];
         raised := None |}.
Proof.
  eexists.
  pose proof (main_output_bracketed ascii_lower 500 (sample_get 200)
                (fun _ => sample_soup) ascii_lower_ok (py "html") ∅
                [elem "head" [elem "title" [text " Digitum "]];
                 elem "body"
                      [NavigableString ClsComment (py " header ");
                       elem "section"
                            [elem "h1" [text "Hello"];
                             elem "script" [text "var x = 1;"]];
                       elem "p" [text "a  b"; elem "img" []]]]) as H.
  cbv zeta in H. rewrite H.
  - reflexivity.
  - reflexivity.
  - reflexivity.
  - vm_compute. lia.
  - vm_compute. reflexivity.
Defined.

Lemma main_writes_iff_witness :
  exists path data,
    Write path data
    ∈ effects (main ascii_lower 500 (sample_get 200) (fun _ => sample_soup)).
Proof.
  apply (main_writes_iff ascii_lower 500 (sample_get 200)
           (fun _ => sample_soup)).
  split; [reflexivity|]. split; [vm_compute; lia|vm_compute; reflexivity].
Defined.
